(** * NVVM metadata across the MLIR -> LLVM IR translation

    A shallow embedding of [lib/Target/LLVMIR/LLVMIRTranslation.cpp]:
    the [NVVMMetadata] record, [amendLLVMFunc], [extractNVVMMetadata] and
    the driver [TranslateLLVMToLLVMIR], followed by the properties of the
    extraction / re-attachment pipeline. *)

From stdpp Require Import gmap strings list fin_maps.
From Stdlib Require Import ZArith Lia.

Local Open Scope Z_scope.

(** The character written by ["\n"]. *)
Definition newline : string := String (Ascii.ascii_of_nat 10) EmptyString.

(** ** Source IR (MLIR) *)

(** An MLIR attribute.  Only the distinction "integer attribute or not"
    matters to the code.  The payload of [IntegerAttr] is what [getInt()]
    returns, a signed 64-bit quantity.  A [BoolAttr] is MLIR's integer
    attribute of type [i1]; the other constructors are not integer
    attributes. *)
Inductive Attribute :=
  | IntegerAttr (value : Z)
  | StringAttr (value : string)
  | BoolAttr (value : bool)
  | UnitAttr.

(** [LLVM::LLVMFuncOp]: the symbol name and the attribute dictionary. *)
Record LLVMFuncOp := {
  getName : string;
  getAttrs : gmap string Attribute
}.

Definition hasAttr (op : LLVMFuncOp) (key : string) : bool :=
  bool_decide (is_Some (getAttrs op !! key)).

Definition getAttr (op : LLVMFuncOp) (key : string) : option Attribute :=
  getAttrs op !! key.

(** [attr.dyn_cast<IntegerAttr>()] followed by the value [getInt()] reads
    from it: a null attribute ([None]) unless the attribute is an integer
    attribute.  On the one-bit attribute [getInt()] sign-extends: -1 for
    [true], 0 for [false]. *)
Definition dyn_cast_IntegerAttr (attr : Attribute) : option Z :=
  match attr with
  | IntegerAttr v => Some v
  | BoolAttr b => Some (if b then -1 else 0)
  | StringAttr _ | UnitAttr => None
  end.

(** The body of a module holds function definitions among other
    operations; [getOps<LLVM::LLVMFuncOp>()] walks the former, in order. *)
Inductive Operation :=
  | FuncOp (f : LLVMFuncOp)
  | OtherOp (mnemonic : string).

Record ModuleOp := { body : list Operation }.

Definition getOps (module : ModuleOp) : list LLVMFuncOp :=
  omap (λ o, match o with FuncOp f => Some f | OtherOp _ => None end)
       (body module).

(** ** Target IR (LLVM) *)

(** Operands of a metadata node.  A function is referred to by its name:
    the loop of the driver reaches functions through the module that owns
    them, and the side table is keyed by name. *)
Inductive Metadata :=
  | ValueAsMetadata_Function (f : string)
  | MDString (s : string)
  | ValueAsMetadata_ConstantInt (width : Z) (bits : Z).

Definition MDNode := list Metadata.

(** [llvm::Module]: the functions, the named metadata (each a list of
    nodes, in insertion order) and the target triple. *)
Record llvm_Module := {
  functions : list string;
  named_metadata : gmap string (list MDNode);
  triple : string
}.

(** [llvm::APInt(numBits, val)]: the low [numBits] bits of [val]. *)
Definition APInt (numBits : Z) (val : Z) : Z := val mod 2 ^ numBits.

(** [module->getOrInsertNamedMetadata(name)->addOperand(node)]. *)
Definition addOperand (name : string) (node : MDNode) (m : llvm_Module)
    : llvm_Module :=
  {| functions := functions m;
     named_metadata :=
       <[name := default [] (named_metadata m !! name) ++ [node]]>
         (named_metadata m);
     triple := triple m |}.

(** The backend-annotation collection of a module. *)
Definition nvvm_annotations (m : llvm_Module) : list MDNode :=
  default [] (named_metadata m !! "nvvm.annotations").

(** ** The component *)

(** [struct NVVMMetadata]; [maxntidx] is a C++ [int]. *)
Record NVVMMetadata := {
  maxntidx : Z;
  is_kernel : bool
}.

Definition NVVMMetadata_default : NVVMMetadata :=
  {| maxntidx := -1; is_kernel := false |}.

(** Conversion of a 64-bit value to [int]: reduction modulo [2^32] into
    the signed range. *)
Definition to_int (z : Z) : Z := (z + 2 ^ 31) mod 2 ^ 32 - 2 ^ 31.

Definition maxntidx_node (func : string) (md : NVVMMetadata) : MDNode :=
  [ ValueAsMetadata_Function func;
    MDString "maxntidx";
    ValueAsMetadata_ConstantInt 32 (APInt 32 (maxntidx md)) ].

Definition kernel_node (func : string) : MDNode :=
  [ ValueAsMetadata_Function func;
    MDString "kernel";
    ValueAsMetadata_ConstantInt 32 1 ].

(** [amendLLVMFunc(func, metadata)], acting on the module that owns
    [func]. *)
Definition amendLLVMFunc (func : string) (metadata : NVVMMetadata)
    (module : llvm_Module) : llvm_Module :=
  let module :=
    if bool_decide (maxntidx metadata > 0)
    then addOperand "nvvm.annotations" (maxntidx_node func metadata) module
    else module in
  if is_kernel metadata
  then addOperand "nvvm.annotations" (kernel_node func) module
  else module.

(** [dic->try_emplace(key, value)]: nothing happens when the key is
    already there. *)
Definition try_emplace (key : string) (value : NVVMMetadata)
    (dic : gmap string NVVMMetadata) : gmap string NVVMMetadata :=
  match dic !! key with
  | Some _ => dic
  | None => <[key := value]> dic
  end.

(** What a run of the driver does besides returning: the routines it
    enters and the text it writes to [llvm::errs()], in order. *)
Inductive Event :=
  | CallExtract
  | CallTranslate
  | CallInitLLVM
  | CallSetupTargetTriple
  | CallOptPipeline
  | CallAmend (func : string)
  | WriteErrs (text : string).

Definition llvm_errs (log : list Event) : list string :=
  omap (λ e, match e with WriteErrs s => Some s | _ => None end) log.

Section Component.

(** The attribute names [NVVMMetadataField::MaxNTid] and
    [NVVMMetadataField::Kernel] come from a header outside this file. *)
Variables MaxNTid Kernel : string.

(** One iteration of the loop of [extractNVVMMetadata].  The result is
    [None] where the source calls [getInt()] on the null attribute that
    [dyn_cast] returned: there the behaviour of the program is
    undefined. *)
Definition extract_op (op : LLVMFuncOp) (dic : gmap string NVVMMetadata)
    : option (gmap string NVVMMetadata) :=
  let meta := NVVMMetadata_default in
  let hasMetadata := false in
  '(meta, hasMetadata) ←
    (if hasAttr op MaxNTid then
       attr ← getAttr op MaxNTid;
       v ← dyn_cast_IntegerAttr attr;
       Some ({| maxntidx := to_int v; is_kernel := is_kernel meta |}, true)
     else Some (meta, hasMetadata));
  let '(meta, hasMetadata) :=
    if hasAttr op Kernel
    then ({| maxntidx := maxntidx meta; is_kernel := true |}, true)
    else (meta, hasMetadata) in
  Some (if hasMetadata then try_emplace (getName op) meta dic else dic).

Fixpoint extract_ops (ops : list LLVMFuncOp) (dic : gmap string NVVMMetadata)
    : option (gmap string NVVMMetadata) :=
  match ops with
  | [] => Some dic
  | op :: ops => dic ← extract_op op dic; extract_ops ops dic
  end.

(** [extractNVVMMetadata(module, dic)]. *)
Definition extractNVVMMetadata (module : ModuleOp)
    (dic : gmap string NVVMMetadata) : option (gmap string NVVMMetadata) :=
  extract_ops (getOps module) dic.

(** What one iteration decides about a function: undefined ([None]), no
    record ([Some None]), or the record it offers to the table.  Used in
    statements; [extract_op_eq] relates it to [extract_op]. *)
Definition op_metadata (op : LLVMFuncOp) : option (option NVVMMetadata) :=
  match getAttr op MaxNTid with
  | Some attr =>
      v ← dyn_cast_IntegerAttr attr;
      Some (Some {| maxntidx := to_int v; is_kernel := hasAttr op Kernel |})
  | None =>
      Some (if hasAttr op Kernel
            then Some {| maxntidx := -1; is_kernel := true |}
            else None)
  end.

(** The record of the first definition called [name] that offers one. *)
Fixpoint first_record (name : string) (ops : list LLVMFuncOp)
    : option NVVMMetadata :=
  match ops with
  | [] => None
  | op :: ops =>
      if decide (getName op = name) then
        match op_metadata op with
        | Some (Some md) => Some md
        | _ => first_record name ops
        end
      else first_record name ops
  end.

(** The external collaborators of the driver: the generic translator
    ([None] for a null module), the target-triple setup, and the
    optimisation pipeline, which transforms the module in place and
    reports an error description or success. *)
Variable translateModuleToLLVMIR : ModuleOp → option llvm_Module.
Variable setupTargetTriple : llvm_Module → llvm_Module.
Variable optPipeline : llvm_Module → llvm_Module * option string.

(** The loop over [llvmModule->functions()] that closes the driver. *)
Fixpoint amend_functions (nvvmMetadata : gmap string NVVMMetadata)
    (funcs : list string) (llvmModule : llvm_Module)
    : llvm_Module * list Event :=
  match funcs with
  | [] => (llvmModule, [])
  | func :: funcs =>
      match nvvmMetadata !! func with
      | Some md =>
          let '(m, log) :=
            amend_functions nvvmMetadata funcs
              (amendLLVMFunc func md llvmModule) in
          (m, CallAmend func :: log)
      | None => amend_functions nvvmMetadata funcs llvmModule
      end
  end.

(** [TranslateLLVMToLLVMIR(llvmContext, module)].  [None]: undefined
    behaviour during extraction.  Otherwise the returned pointer
    ([None] for [nullptr]) and the log of the run.  The registration of
    the dialect translation that opens the function acts on the MLIR
    context alone and is left out. *)
Definition TranslateLLVMToLLVMIR (module : ModuleOp)
    : option (option llvm_Module * list Event) :=
  nvvmMetadata ← extractNVVMMetadata module ∅;
  match translateModuleToLLVMIR module with
  | None =>
      Some (None,
            [CallExtract; CallTranslate;
             WriteErrs ("Failed to emit LLVM IR" +:+ newline)])
  | Some llvmModule =>
      let llvmModule := setupTargetTriple llvmModule in
      let '(llvmModule, err) := optPipeline llvmModule in
      let log := [CallExtract; CallTranslate; CallInitLLVM;
                  CallSetupTargetTriple; CallOptPipeline] in
      match err with
      | Some err =>
          Some (None,
                log ++ [WriteErrs ("Failed to optimize LLVM IR " +:+ err
                                   +:+ newline)])
      | None =>
          let '(llvmModule, amends) :=
            amend_functions nvvmMetadata (functions llvmModule) llvmModule in
          Some (Some llvmModule, log ++ amends)
      end
  end.

End Component.

(** ** Derived notions used by the statements *)

(** The nodes one call of [amendLLVMFunc] appends, in order. *)
Definition amend_nodes (func : string) (md : NVVMMetadata) : list MDNode :=
  (if bool_decide (0 < maxntidx md) then [maxntidx_node func md] else [])
  ++ (if is_kernel md then [kernel_node func] else []).

Definition reattached (dic : gmap string NVVMMetadata) (funcs : list string)
    : list MDNode :=
  flat_map (λ f, from_option (amend_nodes f) [] (dic !! f)) funcs.

(** ** Concrete inputs *)

Definition nvvm_maxntid : string := "nvvm.maxntid".
Definition nvvm_kernel : string := "nvvm.kernel".

(** A translator that keeps every function, one that rejects every
    module, a triple setup, and pipelines that succeed, fail, or drop
    the functions called [dead]. *)
Definition translate_all (module : ModuleOp) : option llvm_Module :=
  Some {| functions := getName <$> getOps module;
          named_metadata := ∅;
          triple := EmptyString |}.

Definition translate_reject (module : ModuleOp) : option llvm_Module := None.

Definition setup_nvptx (m : llvm_Module) : llvm_Module :=
  {| functions := functions m;
     named_metadata := named_metadata m;
     triple := "nvptx64-nvidia-cuda" |}.

Definition opt_ok (m : llvm_Module) : llvm_Module * option string := (m, None).

Definition opt_fail (m : llvm_Module) : llvm_Module * option string :=
  (m, Some "pass failed").

Definition opt_drop_dead (m : llvm_Module) : llvm_Module * option string :=
  ({| functions := filter (λ f, f ≠ "dead") (functions m);
      named_metadata := named_metadata m;
      triple := triple m |}, None).

Definition mk_func (name : string) (attrs : list (string * Attribute))
    : LLVMFuncOp :=
  {| getName := name; getAttrs := list_to_map attrs |}.

Definition mk_module (funcs : list string) (annotations : list MDNode)
    (target : string) : llvm_Module :=
  {| functions := funcs;
     named_metadata :=
       match annotations with
       | [] => ∅
       | _ => {[ "nvvm.annotations" := annotations ]}
       end;
     triple := target |}.

Definition i32_node (func key : string) (value : Z) : MDNode :=
  [ ValueAsMetadata_Function func; MDString key;
    ValueAsMetadata_ConstantInt 32 value ].

Definition driver_calls : list Event :=
  [CallExtract; CallTranslate; CallInitLLVM; CallSetupTargetTriple;
   CallOptPipeline].

(** [kernel0]: entry point with limit 256, next to an unannotated helper. *)
Definition kernel0_func : LLVMFuncOp :=
  mk_func "kernel0" [(nvvm_maxntid, IntegerAttr 256); (nvvm_kernel, UnitAttr)].
Definition helper_func : LLVMFuncOp := mk_func "helper" [].
Definition kernel0_module : ModuleOp :=
  {| body := [ FuncOp kernel0_func; OtherOp "llvm.mlir.global";
               FuncOp helper_func ] |}.
Definition kernel0_table : gmap string NVVMMetadata :=
  {[ "kernel0" := {| maxntidx := 256; is_kernel := true |} ]}.
Definition kernel0_out : llvm_Module :=
  mk_module ["kernel0"; "helper"]
    [ i32_node "kernel0" "maxntidx" 256; i32_node "kernel0" "kernel" 1 ]
    "nvptx64-nvidia-cuda".

(** An entry point whose limit is 0. *)
Definition limit0_func : LLVMFuncOp :=
  mk_func "kernel0" [(nvvm_maxntid, IntegerAttr 0); (nvvm_kernel, UnitAttr)].
Definition limit0_module : ModuleOp := {| body := [ FuncOp limit0_func ] |}.
Definition limit0_out : llvm_Module :=
  mk_module ["kernel0"] [ i32_node "kernel0" "kernel" 1 ] "nvptx64-nvidia-cuda".

(** A limit that does not fit in 32 bits: [2^32 + 256]. *)
Definition wide_func : LLVMFuncOp :=
  mk_func "kernel0" [(nvvm_maxntid, IntegerAttr 4294967552)].
Definition wide_module : ModuleOp := {| body := [ FuncOp wide_func ] |}.
Definition wide_out : llvm_Module :=
  mk_module ["kernel0"] [ i32_node "kernel0" "maxntidx" 256 ]
    "nvptx64-nvidia-cuda".

(** A limit encoded as a string attribute. *)
Definition malformed_func : LLVMFuncOp :=
  mk_func "kernel0" [(nvvm_maxntid, StringAttr "256")].
Definition malformed_module : ModuleOp :=
  {| body := [ FuncOp malformed_func ] |}.

(** Two definitions under one name. *)
Definition duplicate_module : ModuleOp :=
  {| body := [ FuncOp (mk_func "dup" [(nvvm_maxntid, IntegerAttr 128)]);
               FuncOp (mk_func "dup" [(nvvm_kernel, UnitAttr)]) ] |}.
Definition duplicate_table : gmap string NVVMMetadata :=
  {[ "dup" := {| maxntidx := 128; is_kernel := false |} ]}.

(** An annotated function that the pipeline removes. *)
Definition dead_module : ModuleOp :=
  {| body := [ FuncOp (mk_func "kernel0" [(nvvm_kernel, UnitAttr)]);
               FuncOp (mk_func "dead" [(nvvm_maxntid, IntegerAttr 64)]) ] |}.
Definition dead_out : llvm_Module :=
  mk_module ["kernel0"] [ i32_node "kernel0" "kernel" 1 ]
    "nvptx64-nvidia-cuda".

(** A record whose limit is 0, for a function of a one-function module. *)
Definition zero_record : NVVMMetadata :=
  {| maxntidx := 0; is_kernel := false |}.
Definition zero_table : gmap string NVVMMetadata := {[ "f" := zero_record ]}.
Definition one_function : llvm_Module := mk_module ["f"] [] EmptyString.

(** [kernel0_module] again, with the two functions in the other order. *)
Definition swapped_module : ModuleOp :=
  {| body := [ FuncOp helper_func; FuncOp kernel0_func ] |}.

(** [kernel0_module] again, with attributes the code does not look at,
    another encoding of the entry-point mark, and no global. *)
Definition decorated_module : ModuleOp :=
  {| body :=
       [ FuncOp (mk_func "kernel0"
                   [ (nvvm_maxntid, IntegerAttr 256);
                     (nvvm_kernel, BoolAttr true);
                     ("llvm.linkage", StringAttr "external") ]);
         FuncOp (mk_func "helper" [("passthrough", UnitAttr)]) ] |}.

Definition swapped_out : llvm_Module :=
  mk_module ["helper"; "kernel0"]
    [ i32_node "kernel0" "maxntidx" 256; i32_node "kernel0" "kernel" 1 ]
    "nvptx64-nvidia-cuda".

(** The two definitions of [duplicate_module], a translator that emits
    one function per name, and what the driver returns with it. *)
Definition dup_limit_func : LLVMFuncOp :=
  mk_func "dup" [(nvvm_maxntid, IntegerAttr 128)].
Definition dup_kernel_func : LLVMFuncOp :=
  mk_func "dup" [(nvvm_kernel, UnitAttr)].
Definition translate_distinct (module : ModuleOp) : option llvm_Module :=
  Some {| functions := remove_dups (getName <$> getOps module);
          named_metadata := ∅;
          triple := EmptyString |}.
Definition duplicate_out : llvm_Module :=
  mk_module ["dup"] [ i32_node "dup" "maxntidx" 128 ] "nvptx64-nvidia-cuda".

(** A function whose limit and entry-point mark are both the boolean
    attribute [false]. *)
Definition bool_limit_func : LLVMFuncOp :=
  mk_func "flagged" [(nvvm_maxntid, BoolAttr false);
                     (nvvm_kernel, BoolAttr false)].
Definition bool_limit_module : ModuleOp :=
  {| body := [ FuncOp bool_limit_func ] |}.
Definition bool_limit_table : gmap string NVVMMetadata :=
  {[ "flagged" := {| maxntidx := 0; is_kernel := true |} ]}.

(** A table that already has a record for ["kernel0"]. *)
Definition earlier_table : gmap string NVVMMetadata :=
  {[ "kernel0" := {| maxntidx := 64; is_kernel := false |} ]}.

(** A module without any annotation. *)
Definition plain_module : ModuleOp :=
  {| body := [ OtherOp "llvm.mlir.global"; FuncOp helper_func ] |}.

(** * Properties *)

Arguments extract_op MaxNTid Kernel op dic : simpl never.

(** ** Integer conversions *)

Lemma to_int_range z : - 2 ^ 31 ≤ to_int z < 2 ^ 31.
Proof.
  unfold to_int. pose proof (Z.mod_pos_bound (z + 2 ^ 31) (2 ^ 32)). lia.
Qed.

Lemma to_int_congr z : (to_int z - z) mod 2 ^ 32 = 0.
Proof.
  unfold to_int.
  pose proof (Z.div_mod (z + 2 ^ 31) (2 ^ 32) ltac:(lia)) as Hdm.
  replace ((z + 2 ^ 31) `mod` 2 ^ 32 - 2 ^ 31 - z)
    with ((- ((z + 2 ^ 31) `div` 2 ^ 32)) * 2 ^ 32) by lia.
  apply Z.mod_mul. lia.
Qed.

Lemma to_int_id z : - 2 ^ 31 ≤ z < 2 ^ 31 → to_int z = z.
Proof. intros Hz. unfold to_int. rewrite Z.mod_small; lia. Qed.

Lemma to_int_changes z : ¬ (- 2 ^ 31 ≤ z < 2 ^ 31) → to_int z ≠ z.
Proof. intros Hz Heq. apply Hz. rewrite <- Heq. apply to_int_range. Qed.

Lemma APInt_32_int z : 0 < z < 2 ^ 31 → APInt 32 z = z.
Proof. intros Hz. unfold APInt. apply Z.mod_small. lia. Qed.

(** ** Re-attachment: [amendLLVMFunc] and the loop of the driver *)

Lemma nvvm_annotations_addOperand node m :
  nvvm_annotations (addOperand "nvvm.annotations" node m)
  = nvvm_annotations m ++ [node].
Proof.
  unfold nvvm_annotations, addOperand; simpl. by rewrite lookup_insert_eq.
Qed.

Lemma named_metadata_addOperand_ne name name' node m :
  name ≠ name' →
  named_metadata (addOperand name node m) !! name' = named_metadata m !! name'.
Proof. intros Hne. unfold addOperand; simpl. by rewrite lookup_insert_ne. Qed.

Lemma nvvm_annotations_amendLLVMFunc func md m :
  nvvm_annotations (amendLLVMFunc func md m)
  = nvvm_annotations m ++ amend_nodes func md.
Proof.
  unfold amendLLVMFunc, amend_nodes.
  destruct (is_kernel md); repeat case_bool_decide; try lia;
    rewrite ?nvvm_annotations_addOperand, ?app_nil_r, <- ?app_assoc; done.
Qed.

Lemma functions_amendLLVMFunc func md m :
  functions (amendLLVMFunc func md m) = functions m.
Proof.
  unfold amendLLVMFunc. destruct (is_kernel md); case_bool_decide; done.
Qed.

Lemma triple_amendLLVMFunc func md m :
  triple (amendLLVMFunc func md m) = triple m.
Proof.
  unfold amendLLVMFunc. destruct (is_kernel md); case_bool_decide; done.
Qed.

Lemma named_metadata_amendLLVMFunc_ne func md m name :
  name ≠ "nvvm.annotations" →
  named_metadata (amendLLVMFunc func md m) !! name = named_metadata m !! name.
Proof.
  intros Hne. unfold amendLLVMFunc.
  destruct (is_kernel md); case_bool_decide;
    rewrite ?named_metadata_addOperand_ne; done.
Qed.

Lemma amend_functions_cons dic f funcs m :
  (amend_functions dic (f :: funcs) m).1
  = (amend_functions dic funcs
       (from_option (λ md, amendLLVMFunc f md m) m (dic !! f))).1.
Proof.
  cbn [amend_functions]. destruct (dic !! f) as [md|]; [|done].
  cbn [from_option]. by destruct (amend_functions dic funcs _).
Qed.

Lemma amend_functions_annotations dic funcs m :
  nvvm_annotations (amend_functions dic funcs m).1
  = nvvm_annotations m ++ reattached dic funcs.
Proof.
  revert m. induction funcs as [|f funcs IH]; intros m.
  - cbn. by rewrite app_nil_r.
  - rewrite amend_functions_cons, IH. cbn [reattached flat_map].
    destruct (dic !! f) as [md|]; cbn [from_option]; [|done].
    by rewrite nvvm_annotations_amendLLVMFunc, app_assoc.
Qed.

Lemma amend_functions_functions dic funcs m :
  functions (amend_functions dic funcs m).1 = functions m.
Proof.
  revert m. induction funcs as [|f funcs IH]; intros m; [done|].
  rewrite amend_functions_cons, IH.
  destruct (dic !! f) as [md|]; cbn [from_option]; [|done].
  apply functions_amendLLVMFunc.
Qed.

Lemma amend_functions_other_metadata dic funcs m name :
  name ≠ "nvvm.annotations" →
  named_metadata (amend_functions dic funcs m).1 !! name
  = named_metadata m !! name.
Proof.
  intros Hne. revert m. induction funcs as [|f funcs IH]; intros m; [done|].
  rewrite amend_functions_cons, IH.
  destruct (dic !! f) as [md|]; cbn [from_option]; [|done].
  by apply named_metadata_amendLLVMFunc_ne.
Qed.

Lemma elem_of_amend_nodes node func md :
  node ∈ amend_nodes func md ↔
    (node = maxntidx_node func md ∧ 0 < maxntidx md)
    ∨ (node = kernel_node func ∧ is_kernel md = true).
Proof.
  unfold amend_nodes. rewrite elem_of_app.
  destruct (is_kernel md); case_bool_decide;
    rewrite ?list_elem_of_singleton, ?elem_of_nil; intuition congruence.
Qed.

Lemma elem_of_reattached node dic funcs :
  node ∈ reattached dic funcs ↔
    ∃ f md, f ∈ funcs ∧ dic !! f = Some md ∧ node ∈ amend_nodes f md.
Proof.
  induction funcs as [|g funcs IH]; cbn [reattached flat_map].
  - rewrite elem_of_nil. split; [done|].
    intros (f & md & Hf & _). by apply elem_of_nil in Hf.
  - fold (reattached dic funcs). rewrite elem_of_app, IH. split.
    + intros [Hn | (f & md & Hf & Hd & Hn)].
      * destruct (dic !! g) as [md|] eqn:Hd; cbn in Hn.
        -- exists g, md. by rewrite elem_of_cons; auto.
        -- by apply elem_of_nil in Hn.
      * exists f, md. rewrite elem_of_cons. auto.
    + intros (f & md & Hf & Hd & Hn). apply elem_of_cons in Hf as [-> | Hf].
      * left. by rewrite Hd.
      * right. eauto.
Qed.

(** ** Extraction *)

Lemma lookup_try_emplace key value (dic : gmap string NVVMMetadata) name :
  try_emplace key value dic !! name
  = match dic !! name with
    | Some r => Some r
    | None => if decide (key = name) then Some value else None
    end.
Proof.
  unfold try_emplace. destruct (dic !! key) as [r|] eqn:Hk.
  - destruct (dic !! name) eqn:Hn; [done|]. case_decide; congruence.
  - rewrite lookup_insert. case_decide; subst; [by rewrite Hk|].
    by destruct (dic !! name).
Qed.

Section Extraction.

Variables MaxNTid Kernel : string.

Lemma hasAttr_getAttr op key :
  hasAttr op key = bool_decide (getAttr op key ≠ None).
Proof.
  unfold hasAttr, getAttr. apply bool_decide_ext.
  rewrite is_Some_alt. by destruct (getAttrs op !! key).
Qed.

Lemma extract_op_eq op dic :
  extract_op MaxNTid Kernel op dic
  = r ← op_metadata MaxNTid Kernel op;
    Some (from_option (λ md, try_emplace (getName op) md dic) dic r).
Proof.
  unfold extract_op, op_metadata. rewrite (hasAttr_getAttr op MaxNTid).
  destruct (getAttr op MaxNTid) as [attr|]; cbn.
  - destruct (dyn_cast_IntegerAttr attr) as [v|]; cbn; [|done].
    by destruct (hasAttr op Kernel).
  - by destruct (hasAttr op Kernel).
Qed.

Lemma extract_ops_app ops1 ops2 dic :
  extract_ops MaxNTid Kernel (ops1 ++ ops2) dic
  = dic' ← extract_ops MaxNTid Kernel ops1 dic;
    extract_ops MaxNTid Kernel ops2 dic'.
Proof.
  revert dic. induction ops1 as [|op ops1 IH]; intros dic; cbn; [done|].
  destruct (extract_op MaxNTid Kernel op dic) as [dic1|]; cbn;
    [apply IH|done].
Qed.

Lemma extract_ops_lookup ops dic dic' name :
  extract_ops MaxNTid Kernel ops dic = Some dic' →
  dic' !! name = match dic !! name with
                 | Some r => Some r
                 | None => first_record MaxNTid Kernel name ops
                 end.
Proof.
  revert dic. induction ops as [|op ops IH]; intros dic; cbn.
  - intros [= <-]. by destruct (dic !! name).
  - rewrite extract_op_eq.
    destruct (op_metadata MaxNTid Kernel op) as [[md|]|] eqn:Hop; cbn;
      [| |done].
    + intros Hex. rewrite (IH _ Hex), lookup_try_emplace.
      destruct (dic !! name); [done|]. by case_decide.
    + intros Hex. rewrite (IH _ Hex).
      destruct (dic !! name); [done|]. by case_decide.
Qed.

Lemma extract_ops_defined ops dic :
  is_Some (extract_ops MaxNTid Kernel ops dic)
  ↔ Forall (λ op, is_Some (op_metadata MaxNTid Kernel op)) ops.
Proof.
  revert dic. induction ops as [|op ops IH]; intros dic; cbn.
  - split; [constructor|eauto].
  - rewrite extract_op_eq, Forall_cons.
    destruct (op_metadata MaxNTid Kernel op) as [r|]; cbn.
    + rewrite IH. split; [eauto|tauto].
    + split; [by intros [? [=]]|by intros [[? [=]] _]].
Qed.

Lemma first_record_unique pre f post :
  (∀ g, g ∈ pre → getName g ≠ getName f) →
  first_record MaxNTid Kernel (getName f) (pre ++ f :: post)
  = match op_metadata MaxNTid Kernel f with
    | Some (Some md) => Some md
    | _ => first_record MaxNTid Kernel (getName f) post
    end.
Proof.
  intros Hpre. induction pre as [|g pre IH]; cbn.
  - by rewrite decide_True.
  - rewrite decide_False by (apply Hpre; left).
    apply IH. intros g' Hg'. apply Hpre. by right.
Qed.

Lemma op_metadata_unannotated op :
  hasAttr op MaxNTid = false → hasAttr op Kernel = false →
  op_metadata MaxNTid Kernel op = Some None.
Proof.
  intros H1 H2. unfold op_metadata. rewrite H2.
  rewrite hasAttr_getAttr in H1.
  destruct (getAttr op MaxNTid); [|done].
  exfalso. apply bool_decide_eq_false in H1. by apply H1.
Qed.

Lemma first_record_unshadowed pre f post :
  (∀ g, g ∈ pre → getName g = getName f →
        hasAttr g MaxNTid = false ∧ hasAttr g Kernel = false) →
  first_record MaxNTid Kernel (getName f) (pre ++ f :: post)
  = match op_metadata MaxNTid Kernel f with
    | Some (Some md) => Some md
    | _ => first_record MaxNTid Kernel (getName f) post
    end.
Proof.
  intros Hpre. induction pre as [|g pre IH]; cbn.
  - by rewrite decide_True.
  - assert (first_record MaxNTid Kernel (getName f) (pre ++ f :: post)
            = match op_metadata MaxNTid Kernel f with
              | Some (Some md) => Some md
              | _ => first_record MaxNTid Kernel (getName f) post
              end) as Hrest.
    { apply IH. intros g' Hg'. apply Hpre. by right. }
    case_decide as Hname; [|done].
    destruct (Hpre g) as [H1 H2]; [left|done|].
    by rewrite op_metadata_unannotated.
Qed.

End Extraction.

(** ** The driver *)

Section Driver.

Variables MaxNTid Kernel : string.
Variable translateModuleToLLVMIR : ModuleOp → option llvm_Module.
Variable setupTargetTriple : llvm_Module → llvm_Module.
Variable optPipeline : llvm_Module → llvm_Module * option string.

(** A run that returns a module went through every stage. *)
Lemma TranslateLLVMToLLVMIR_returns module out log :
  TranslateLLVMToLLVMIR MaxNTid Kernel translateModuleToLLVMIR
    setupTargetTriple optPipeline module = Some (Some out, log) →
  ∃ dic lm opt,
    extractNVVMMetadata MaxNTid Kernel module ∅ = Some dic
    ∧ translateModuleToLLVMIR module = Some lm
    ∧ optPipeline (setupTargetTriple lm) = (opt, None)
    ∧ out = (amend_functions dic (functions opt) opt).1.
Proof.
  unfold TranslateLLVMToLLVMIR.
  destruct (extractNVVMMetadata MaxNTid Kernel module ∅) as [dic|]; [|done].
  cbn. destruct (translateModuleToLLVMIR module) as [lm|]; [|done].
  destruct (optPipeline (setupTargetTriple lm)) as [opt [e|]] eqn:Hopt; [done|].
  destruct (amend_functions dic (functions opt) opt) as [m' amends] eqn:Ham.
  intros [= <- <-]. exists dic, lm, opt. by rewrite Ham.
Qed.

(** The record extraction stores for a definition that no earlier
    definition shares its name with. *)
Lemma extracted_record module pre f post dic :
  getOps module = pre ++ f :: post →
  (∀ g, g ∈ pre → getName g ≠ getName f) →
  extractNVVMMetadata MaxNTid Kernel module ∅ = Some dic →
  ∃ r, op_metadata MaxNTid Kernel f = Some r
       ∧ dic !! getName f
         = match r with
           | Some md => Some md
           | None => first_record MaxNTid Kernel (getName f) post
           end.
Proof.
  intros Hops Hpre Hex. unfold extractNVVMMetadata in Hex. rewrite Hops in Hex.
  assert (is_Some (op_metadata MaxNTid Kernel f)) as [r Hr].
  { assert (is_Some (extract_ops MaxNTid Kernel (pre ++ f :: post) ∅)) as Hd
      by eauto.
    apply extract_ops_defined, Forall_app in Hd as [_ Hd].
    by apply Forall_cons in Hd as [? _]. }
  exists r. split; [done|].
  rewrite (extract_ops_lookup _ _ _ _ _ (getName f) Hex), lookup_empty.
  rewrite first_record_unique by done. by rewrite Hr.
Qed.

(** The record extraction stores for a definition when every earlier
    definition of the same name carries no recognised attribute. *)
Lemma extracted_record_unshadowed module pre f post dic :
  getOps module = pre ++ f :: post →
  (∀ g, g ∈ pre → getName g = getName f →
        hasAttr g MaxNTid = false ∧ hasAttr g Kernel = false) →
  extractNVVMMetadata MaxNTid Kernel module ∅ = Some dic →
  ∃ r, op_metadata MaxNTid Kernel f = Some r
       ∧ dic !! getName f
         = match r with
           | Some md => Some md
           | None => first_record MaxNTid Kernel (getName f) post
           end.
Proof.
  intros Hops Hpre Hex. unfold extractNVVMMetadata in Hex. rewrite Hops in Hex.
  assert (is_Some (op_metadata MaxNTid Kernel f)) as [r Hr].
  { assert (is_Some (extract_ops MaxNTid Kernel (pre ++ f :: post) ∅)) as Hd
      by eauto.
    apply extract_ops_defined, Forall_app in Hd as [_ Hd].
    by apply Forall_cons in Hd as [? _]. }
  exists r. split; [done|].
  rewrite (extract_ops_lookup _ _ _ _ _ (getName f) Hex), lookup_empty.
  rewrite first_record_unshadowed by done. by rewrite Hr.
Qed.

(** C1, as amended.  Let [f] be a function definition of the source
    module such that no earlier definition of the same name carries the
    limit attribute or the entry-point attribute, and let the driver
    return a module that still has a function of that name.  If [f]
    carries the entry-point attribute, the returned module's
    [nvvm.annotations] holds the node (f, "kernel", i32 1); if [f] carries
    the limit as an integer attribute whose value [v] lies in
    [1 .. 2^31 - 1], it holds the node (f, "maxntidx", i32 v). *)
Theorem preservation_of_kernel_and_positive_limit module pre f post out log :
  getOps module = pre ++ f :: post →
  (∀ g, g ∈ pre → getName g = getName f →
        hasAttr g MaxNTid = false ∧ hasAttr g Kernel = false) →
  TranslateLLVMToLLVMIR MaxNTid Kernel translateModuleToLLVMIR
    setupTargetTriple optPipeline module = Some (Some out, log) →
  getName f ∈ functions out →
  (hasAttr f Kernel = true →
     [ ValueAsMetadata_Function (getName f); MDString "kernel";
       ValueAsMetadata_ConstantInt 32 1 ] ∈ nvvm_annotations out)
  ∧ (∀ v, getAttr f MaxNTid = Some (IntegerAttr v) → 0 < v < 2 ^ 31 →
       [ ValueAsMetadata_Function (getName f); MDString "maxntidx";
         ValueAsMetadata_ConstantInt 32 v ] ∈ nvvm_annotations out).
Proof.
  intros Hops Hpre Hrun Hin.
  destruct (TranslateLLVMToLLVMIR_returns _ _ _ Hrun)
    as (dic & lm & opt & Hex & _ & _ & ->).
  rewrite amend_functions_functions in Hin.
  rewrite amend_functions_annotations.
  destruct (extracted_record_unshadowed _ _ _ _ _ Hops Hpre Hex)
    as (r & Hr & Hdic).
  unfold op_metadata in Hr. split.
  - intros Hk. rewrite Hk in Hr.
    assert (∃ md, dic !! getName f = Some md ∧ is_kernel md = true)
      as (md & Hmd & Hker).
    { destruct (getAttr f MaxNTid) as [attr|]; cbn in Hr.
      - destruct (dyn_cast_IntegerAttr attr); cbn in Hr; [|done].
        injection Hr as <-. eauto.
      - injection Hr as <-. eauto. }
    apply elem_of_app. right. apply elem_of_reattached.
    exists (getName f), md. split_and!; [done..|].
    apply elem_of_amend_nodes. by right.
  - intros v Hv Hrange. rewrite Hv in Hr. cbn in Hr. injection Hr as <-.
    apply elem_of_app. right. apply elem_of_reattached.
    eexists (getName f), _. split_and!; [done..|].
    apply elem_of_amend_nodes. left. cbn.
    rewrite to_int_id by lia. split; [|lia].
    unfold maxntidx_node; cbn. by rewrite APInt_32_int.
Qed.

(** C5.  Write the returned module's [nvvm.annotations] as the optimised
    module's followed by the nodes the driver produced.  Every produced
    node refers to a function [f] of the optimised module for which the
    side table holds a record, and is either the "maxntidx" node of a
    record whose limit differs from the default or the "kernel" node of a
    record whose entry-point flag differs from the default.  Hence no
    produced node refers to a function the pipeline removed. *)
Theorem non_fabrication module out log :
  TranslateLLVMToLLVMIR MaxNTid Kernel translateModuleToLLVMIR
    setupTargetTriple optPipeline module = Some (Some out, log) →
  ∃ dic lm opt produced,
    extractNVVMMetadata MaxNTid Kernel module ∅ = Some dic
    ∧ translateModuleToLLVMIR module = Some lm
    ∧ optPipeline (setupTargetTriple lm) = (opt, None)
    ∧ functions out = functions opt
    ∧ nvvm_annotations out = nvvm_annotations opt ++ produced
    ∧ (∀ node, node ∈ produced →
         ∃ f md,
           f ∈ functions opt
           ∧ dic !! f = Some md
           ∧ ((node = maxntidx_node f md
               ∧ maxntidx md ≠ maxntidx NVVMMetadata_default)
              ∨ (node = kernel_node f
                 ∧ is_kernel md ≠ is_kernel NVVMMetadata_default)))
    ∧ (∀ node g, node ∈ produced → g ∉ functions opt →
         ValueAsMetadata_Function g ∉ node).
Proof.
  intros Hrun.
  destruct (TranslateLLVMToLLVMIR_returns _ _ _ Hrun)
    as (dic & lm & opt & Hex & Htr & Hopt & ->).
  exists dic, lm, opt, (reattached dic (functions opt)).
  assert (∀ node, node ∈ reattached dic (functions opt) →
            ∃ f md, f ∈ functions opt ∧ dic !! f = Some md
              ∧ ((node = maxntidx_node f md
                  ∧ maxntidx md ≠ maxntidx NVVMMetadata_default)
                 ∨ (node = kernel_node f
                    ∧ is_kernel md ≠ is_kernel NVVMMetadata_default)))
    as Hprod.
  { intros node (f & md & Hf & Hd & Hn)%elem_of_reattached.
    exists f, md. split_and!; [done..|].
    apply elem_of_amend_nodes in Hn as [[-> Hpos] | [-> Hk]]; cbn.
    - left. split; [done|lia].
    - right. split; [done|]. by rewrite Hk. }
  split_and!; [done..| apply amend_functions_functions
              | apply amend_functions_annotations | done |].
  intros node g Hnode Hg Hmem.
  destruct (Hprod node Hnode) as (f & md & Hf & _ & [[-> _] | [-> _]]);
    unfold maxntidx_node, kernel_node in Hmem;
    rewrite !elem_of_cons, elem_of_nil in Hmem;
    destruct Hmem as [[= ->] | [? | [? | []]]]; done.
Qed.

(** C2, as amended.  When extraction has completed and the generic
    translator returns no module, the driver returns the null pointer,
    writes the single diagnostic "Failed to emit LLVM IR" to the error
    stream, and stops: extraction has run, the pipeline and the
    re-attachment have not. *)
Theorem translation_failure_is_final module dic :
  extractNVVMMetadata MaxNTid Kernel module ∅ = Some dic →
  translateModuleToLLVMIR module = None →
  ∃ log,
    TranslateLLVMToLLVMIR MaxNTid Kernel translateModuleToLLVMIR
      setupTargetTriple optPipeline module = Some (None, log)
    ∧ log = [CallExtract; CallTranslate;
             WriteErrs ("Failed to emit LLVM IR" +:+ newline)]
    ∧ llvm_errs log = ["Failed to emit LLVM IR" +:+ newline]
    ∧ (CallOptPipeline ∉ log)
    ∧ (∀ func, CallAmend func ∉ log).
Proof.
  intros Hex Htr. eexists. split.
  - unfold TranslateLLVMToLLVMIR. rewrite Hex. cbn. by rewrite Htr.
  - split_and!; [done..| |intros func];
      rewrite !elem_of_cons, elem_of_nil; intuition discriminate.
Qed.

(** C6.  When the optimisation pipeline reports an error, the driver
    returns the null pointer, not the module the pipeline worked on, and
    the one diagnostic it writes is "Failed to optimize LLVM IR "
    followed by the description of that error; no re-attachment
    happens. *)
Theorem optimization_failure_is_final module dic lm opt err :
  extractNVVMMetadata MaxNTid Kernel module ∅ = Some dic →
  translateModuleToLLVMIR module = Some lm →
  optPipeline (setupTargetTriple lm) = (opt, Some err) →
  ∃ log,
    TranslateLLVMToLLVMIR MaxNTid Kernel translateModuleToLLVMIR
      setupTargetTriple optPipeline module = Some (None, log)
    ∧ llvm_errs log = ["Failed to optimize LLVM IR " +:+ err +:+ newline]
    ∧ last log = Some (WriteErrs ("Failed to optimize LLVM IR " +:+ err
                                  +:+ newline))
    ∧ (∀ func, CallAmend func ∉ log).
Proof.
  intros Hex Htr Hopt. eexists. split.
  - unfold TranslateLLVMToLLVMIR. rewrite Hex. cbn. by rewrite Htr, Hopt.
  - split_and!; [done..|]. intros func. cbn.
    rewrite !elem_of_cons, elem_of_nil. intuition discriminate.
Qed.

(** C10.  Let [f] carry the limit as an integer attribute of value [v]
    outside the range of [int].  The record extraction stores for [f]
    holds [v] reduced modulo 2^32 into the signed 32-bit range, which is
    not [v]; every "maxntidx" node the driver produces for [f] carries
    that reduced value, and one is produced whenever [f] is still in the
    optimised module and the reduced value is positive. *)
Theorem limit_travels_through_int module pre f post v out log :
  getOps module = pre ++ f :: post →
  (∀ g, g ∈ pre → getName g ≠ getName f) →
  getAttr f MaxNTid = Some (IntegerAttr v) →
  ¬ (- 2 ^ 31 ≤ v < 2 ^ 31) →
  TranslateLLVMToLLVMIR MaxNTid Kernel translateModuleToLLVMIR
    setupTargetTriple optPipeline module = Some (Some out, log) →
  ∃ dic md lm opt produced,
    extractNVVMMetadata MaxNTid Kernel module ∅ = Some dic
    ∧ dic !! getName f = Some md
    ∧ - 2 ^ 31 ≤ maxntidx md < 2 ^ 31
    ∧ (maxntidx md - v) mod 2 ^ 32 = 0
    ∧ maxntidx md ≠ v
    ∧ translateModuleToLLVMIR module = Some lm
    ∧ optPipeline (setupTargetTriple lm) = (opt, None)
    ∧ nvvm_annotations out = nvvm_annotations opt ++ produced
    ∧ (∀ c, [ ValueAsMetadata_Function (getName f); MDString "maxntidx";
              ValueAsMetadata_ConstantInt 32 c ] ∈ produced →
            c = maxntidx md)
    ∧ (getName f ∈ functions opt → 0 < maxntidx md →
       [ ValueAsMetadata_Function (getName f); MDString "maxntidx";
         ValueAsMetadata_ConstantInt 32 (maxntidx md) ] ∈ produced).
Proof.
  intros Hops Hpre Hv Hout Hrun.
  destruct (TranslateLLVMToLLVMIR_returns _ _ _ Hrun)
    as (dic & lm & opt & Hex & Htr & Hopt & ->).
  destruct (extracted_record _ _ _ _ _ Hops Hpre Hex) as (r & Hr & Hdic).
  unfold op_metadata in Hr. rewrite Hv in Hr. cbn in Hr. injection Hr as <-.
  eexists dic, _, lm, opt, (reattached dic (functions opt)).
  split; [done|]. split; [exact Hdic|]. split; [apply to_int_range|].
  split; [apply to_int_congr|]. split; [by apply to_int_changes|].
  split; [done|]. split; [done|].
  split; [apply amend_functions_annotations|]. split; cbn.
  - intros c (g & md & Hg & Hd & Hn)%elem_of_reattached.
    apply elem_of_amend_nodes in Hn as [[Heq Hpos] | [Heq _]];
      [|discriminate Heq].
    injection Heq as Hname Hc. subst g c.
    rewrite Hdic in Hd. injection Hd as <-.
    cbn in *. apply APInt_32_int. pose proof (to_int_range v). lia.
  - intros Hin Hpos. apply elem_of_reattached.
    eexists (getName f), _. split_and!; [done..|].
    apply elem_of_amend_nodes. left. split; [|done].
    unfold maxntidx_node; cbn. rewrite APInt_32_int; [done|].
    pose proof (to_int_range v). lia.
Qed.

End Driver.

(** ** Claims on re-attachment *)

(** C3, as amended.  For a function [f] of the module whose name the side
    table maps to a record, a call of [amendLLVMFunc] appends the
    "maxntidx" node exactly when the record's limit is strictly positive
    (so not for 0 nor for any negative value), then the "kernel" node
    exactly when the record is an entry point; and the loop of the driver
    leaves each such node in the module's [nvvm.annotations]. *)
Theorem reattachment_per_positive_field dic m f md :
  f ∈ functions m →
  dic !! f = Some md →
  (∀ m', nvvm_annotations (amendLLVMFunc f md m')
         = nvvm_annotations m'
           ++ (if bool_decide (0 < maxntidx md)
               then [maxntidx_node f md] else [])
           ++ (if is_kernel md then [kernel_node f] else []))
  ∧ (0 < maxntidx md →
     maxntidx_node f md
       ∈ nvvm_annotations (amend_functions dic (functions m) m).1)
  ∧ (is_kernel md = true →
     kernel_node f
       ∈ nvvm_annotations (amend_functions dic (functions m) m).1).
Proof.
  intros Hf Hd. split; [intros m'; apply nvvm_annotations_amendLLVMFunc|].
  rewrite amend_functions_annotations.
  split; intros H; apply elem_of_app; right; apply elem_of_reattached;
    exists f, md; (split_and!; [done..|]); apply elem_of_amend_nodes; auto.
Qed.

(** C7.  The [nvvm.annotations] a module has before re-attachment is a
    prefix of what it has afterwards, for one call of [amendLLVMFunc] and
    for the whole loop of the driver: entries are appended, none is
    removed or changed. *)
Theorem reattachment_is_additive dic m f md :
  nvvm_annotations m `prefix_of` nvvm_annotations (amendLLVMFunc f md m)
  ∧ nvvm_annotations m
      `prefix_of` nvvm_annotations (amend_functions dic (functions m) m).1.
Proof.
  split.
  - rewrite nvvm_annotations_amendLLVMFunc. by eexists.
  - rewrite amend_functions_annotations. by eexists.
Qed.

(** ** Claims on extraction *)

Section ExtractionClaims.

Variables MaxNTid Kernel : string.

Lemma first_record_absent name ops :
  (∀ g, g ∈ ops → getName g ≠ name) →
  first_record MaxNTid Kernel name ops = None.
Proof.
  induction ops as [|g ops IH]; intros Hne; cbn; [done|].
  rewrite decide_False by (apply Hne; left).
  apply IH. intros g' Hg'. apply Hne. by right.
Qed.

Lemma extract_op_unannotated op dic :
  hasAttr op MaxNTid = false → hasAttr op Kernel = false →
  extract_op MaxNTid Kernel op dic = Some dic.
Proof. intros H1 H2. unfold extract_op. by rewrite H1, H2. Qed.

(** C8.  The side table extraction builds has no two entries under one
    name, whatever the module: a name defined more than once keeps the
    record of its first definition that offers one. *)
Theorem side_table_one_record_per_name module dic :
  extractNVVMMetadata MaxNTid Kernel module ∅ = Some dic →
  NoDup (map_to_list dic).*1
  ∧ (∀ name md1 md2,
       (name, md1) ∈ map_to_list dic → (name, md2) ∈ map_to_list dic →
       md1 = md2)
  ∧ (∀ name,
       dic !! name = first_record MaxNTid Kernel name (getOps module)).
Proof.
  intros Hex. split_and!.
  - apply NoDup_fst_map_to_list.
  - intros name md1 md2 H1%elem_of_map_to_list H2%elem_of_map_to_list.
    congruence.
  - intros name. unfold extractNVVMMetadata in Hex.
    by rewrite (extract_ops_lookup _ _ _ _ _ name Hex), lookup_empty.
Qed.

(** C9.  A function definition with neither the limit attribute nor the
    entry-point attribute leaves the side table as it was: its iteration
    inserts nothing, extraction gives what it gives on the module without
    that definition, and when no other definition has its name the table
    has no record under that name. *)
Theorem unannotated_function_not_inserted module pre op post :
  getOps module = pre ++ op :: post →
  hasAttr op MaxNTid = false →
  hasAttr op Kernel = false →
  (∀ dic, extract_op MaxNTid Kernel op dic = Some dic)
  ∧ (∀ dic, extractNVVMMetadata MaxNTid Kernel module dic
            = extract_ops MaxNTid Kernel (pre ++ post) dic)
  ∧ (∀ dic, extractNVVMMetadata MaxNTid Kernel module ∅ = Some dic →
            (∀ g, g ∈ pre ++ post → getName g ≠ getName op) →
            dic !! getName op = None).
Proof.
  intros Hops H1 H2.
  assert (∀ dic, extractNVVMMetadata MaxNTid Kernel module dic
                 = extract_ops MaxNTid Kernel (pre ++ post) dic) as Hsame.
  { intros dic. unfold extractNVVMMetadata.
    rewrite Hops, !extract_ops_app. cbn.
    destruct (extract_ops MaxNTid Kernel pre dic) as [dic1|]; cbn; [|done].
    by rewrite extract_op_unannotated. }
  split_and!; [intros dic; by apply extract_op_unannotated | done |].
  intros dic Hex Hne. rewrite Hsame in Hex.
  rewrite (extract_ops_lookup _ _ _ _ _ (getName op) Hex), lookup_empty.
  by apply first_record_absent.
Qed.

End ExtractionClaims.

(** C4.  On a module whose function carries the limit as a string
    attribute, [dyn_cast] yields the null attribute and [getInt()] is
    called on it: extraction has no defined outcome, and so neither has
    the driver, whatever the collaborators; no diagnostic is written and
    no result is returned. *)
Theorem malformed_limit_is_undefined Kernel translate setup optimize :
  getOps malformed_module = [malformed_func]
  ∧ getAttr malformed_func nvvm_maxntid = Some (StringAttr "256")
  ∧ extractNVVMMetadata nvvm_maxntid Kernel malformed_module ∅ = None
  ∧ TranslateLLVMToLLVMIR nvvm_maxntid Kernel translate setup optimize
      malformed_module = None.
Proof.
  assert (getOps malformed_module = [malformed_func]) as Hops by reflexivity.
  assert (extractNVVMMetadata nvvm_maxntid Kernel malformed_module ∅ = None)
    as Hex.
  { unfold extractNVVMMetadata. rewrite Hops. cbn [extract_ops].
    rewrite extract_op_eq. unfold op_metadata.
    replace (getAttr _ nvvm_maxntid) with (Some (StringAttr "256"))
      by (vm_compute; reflexivity).
    done. }
  split_and!; [done | vm_compute; reflexivity | done |].
  unfold TranslateLLVMToLLVMIR. by rewrite Hex.
Qed.

(** ** The theorems at concrete inputs *)

Lemma preservation_of_kernel_and_positive_limit_witness :
  getOps swapped_module = [helper_func] ++ kernel0_func :: []
  ∧ TranslateLLVMToLLVMIR nvvm_maxntid nvvm_kernel translate_all setup_nvptx
      opt_ok swapped_module
    = Some (Some swapped_out, driver_calls ++ [CallAmend "kernel0"])
  ∧ i32_node "kernel0" "kernel" 1 ∈ nvvm_annotations swapped_out
  ∧ i32_node "kernel0" "maxntidx" 256 ∈ nvvm_annotations swapped_out.
Proof.
  assert (TranslateLLVMToLLVMIR nvvm_maxntid nvvm_kernel translate_all
            setup_nvptx opt_ok swapped_module
          = Some (Some swapped_out, driver_calls ++ [CallAmend "kernel0"]))
    as Hrun by (vm_compute; reflexivity).
  split; [reflexivity|]. split; [exact Hrun|].
  destruct (preservation_of_kernel_and_positive_limit
              nvvm_maxntid nvvm_kernel translate_all setup_nvptx opt_ok
              swapped_module [helper_func] kernel0_func [] swapped_out
              (driver_calls ++ [CallAmend "kernel0"]))
    as [Hk Hl].
  - reflexivity.
  - intros g Hg _. apply list_elem_of_singleton in Hg as ->.
    split; vm_compute; reflexivity.
  - exact Hrun.
  - right. left.
  - split; [apply Hk; vm_compute; reflexivity|].
    apply (Hl 256); [vm_compute; reflexivity | lia].
Defined.

Lemma non_fabrication_witness :
  ∃ dic lm opt produced,
    extractNVVMMetadata nvvm_maxntid nvvm_kernel dead_module ∅ = Some dic
    ∧ translate_all dead_module = Some lm
    ∧ opt_drop_dead (setup_nvptx lm) = (opt, None)
    ∧ functions dead_out = functions opt
    ∧ nvvm_annotations dead_out = nvvm_annotations opt ++ produced
    ∧ (∀ node, node ∈ produced →
         ∃ f md,
           f ∈ functions opt
           ∧ dic !! f = Some md
           ∧ ((node = maxntidx_node f md
               ∧ maxntidx md ≠ maxntidx NVVMMetadata_default)
              ∨ (node = kernel_node f
                 ∧ is_kernel md ≠ is_kernel NVVMMetadata_default)))
    ∧ (∀ node g, node ∈ produced → g ∉ functions opt →
         ValueAsMetadata_Function g ∉ node).
Proof.
  apply (non_fabrication nvvm_maxntid nvvm_kernel translate_all setup_nvptx
           opt_drop_dead dead_module dead_out
           (driver_calls ++ [CallAmend "kernel0"])).
  vm_compute; reflexivity.
Defined.

Lemma translation_failure_is_final_witness :
  extractNVVMMetadata nvvm_maxntid nvvm_kernel kernel0_module ∅
  = Some kernel0_table
  ∧ translate_reject kernel0_module = None
  ∧ ∃ log,
      TranslateLLVMToLLVMIR nvvm_maxntid nvvm_kernel translate_reject
        setup_nvptx opt_ok kernel0_module = Some (None, log)
      ∧ log = [CallExtract; CallTranslate;
               WriteErrs ("Failed to emit LLVM IR" +:+ newline)]
      ∧ llvm_errs log = ["Failed to emit LLVM IR" +:+ newline]
      ∧ (CallOptPipeline ∉ log)
      ∧ (∀ func, CallAmend func ∉ log).
Proof.
  assert (extractNVVMMetadata nvvm_maxntid nvvm_kernel kernel0_module ∅
          = Some kernel0_table) as Hex by (vm_compute; reflexivity).
  split; [exact Hex|]. split; [reflexivity|].
  apply (translation_failure_is_final nvvm_maxntid nvvm_kernel
           translate_reject setup_nvptx opt_ok kernel0_module kernel0_table).
  - exact Hex.
  - reflexivity.
Defined.

Lemma optimization_failure_is_final_witness :
  extractNVVMMetadata nvvm_maxntid nvvm_kernel kernel0_module ∅
  = Some kernel0_table
  ∧ opt_fail (setup_nvptx (mk_module ["kernel0"; "helper"] [] EmptyString))
    = (mk_module ["kernel0"; "helper"] [] "nvptx64-nvidia-cuda",
       Some "pass failed")
  ∧ ∃ log,
      TranslateLLVMToLLVMIR nvvm_maxntid nvvm_kernel translate_all
        setup_nvptx opt_fail kernel0_module = Some (None, log)
      ∧ llvm_errs log
        = ["Failed to optimize LLVM IR " +:+ "pass failed" +:+ newline]
      ∧ last log
        = Some (WriteErrs ("Failed to optimize LLVM IR " +:+ "pass failed"
                           +:+ newline))
      ∧ (∀ func, CallAmend func ∉ log).
Proof.
  assert (extractNVVMMetadata nvvm_maxntid nvvm_kernel kernel0_module ∅
          = Some kernel0_table) as Hex by (vm_compute; reflexivity).
  split; [exact Hex|]. split; [reflexivity|].
  apply (optimization_failure_is_final nvvm_maxntid nvvm_kernel translate_all
           setup_nvptx opt_fail kernel0_module kernel0_table
           (mk_module ["kernel0"; "helper"] [] EmptyString)
           (mk_module ["kernel0"; "helper"] [] "nvptx64-nvidia-cuda")
           "pass failed").
  - exact Hex.
  - reflexivity.
  - reflexivity.
Defined.

Lemma limit_travels_through_int_witness :
  getAttr wide_func nvvm_maxntid = Some (IntegerAttr (2 ^ 32 + 256))
  ∧ ¬ (- 2 ^ 31 ≤ 2 ^ 32 + 256 < 2 ^ 31)
  ∧ TranslateLLVMToLLVMIR nvvm_maxntid nvvm_kernel translate_all setup_nvptx
      opt_ok wide_module
    = Some (Some wide_out, driver_calls ++ [CallAmend "kernel0"])
  ∧ ∃ dic md lm opt produced,
      extractNVVMMetadata nvvm_maxntid nvvm_kernel wide_module ∅ = Some dic
      ∧ dic !! "kernel0" = Some md
      ∧ - 2 ^ 31 ≤ maxntidx md < 2 ^ 31
      ∧ (maxntidx md - (2 ^ 32 + 256)) mod 2 ^ 32 = 0
      ∧ maxntidx md ≠ 2 ^ 32 + 256
      ∧ translate_all wide_module = Some lm
      ∧ opt_ok (setup_nvptx lm) = (opt, None)
      ∧ nvvm_annotations wide_out = nvvm_annotations opt ++ produced
      ∧ (∀ c, i32_node "kernel0" "maxntidx" c ∈ produced →
              c = maxntidx md)
      ∧ ("kernel0" ∈ functions opt → 0 < maxntidx md →
         i32_node "kernel0" "maxntidx" (maxntidx md) ∈ produced).
Proof.
  assert (getAttr wide_func nvvm_maxntid = Some (IntegerAttr (2 ^ 32 + 256)))
    as Hv by (vm_compute; reflexivity).
  assert (¬ (- 2 ^ 31 ≤ 2 ^ 32 + 256 < 2 ^ 31)) as Hwide by lia.
  assert (TranslateLLVMToLLVMIR nvvm_maxntid nvvm_kernel translate_all
            setup_nvptx opt_ok wide_module
          = Some (Some wide_out, driver_calls ++ [CallAmend "kernel0"]))
    as Hrun by (vm_compute; reflexivity).
  split; [exact Hv|]. split; [exact Hwide|]. split; [exact Hrun|].
  apply (limit_travels_through_int nvvm_maxntid nvvm_kernel translate_all
           setup_nvptx opt_ok wide_module [] wide_func [] (2 ^ 32 + 256)
           wide_out (driver_calls ++ [CallAmend "kernel0"])).
  - reflexivity.
  - intros g Hg. by apply elem_of_nil in Hg.
  - exact Hv.
  - exact Hwide.
  - exact Hrun.
Defined.

Lemma reattachment_per_positive_field_witness :
  "kernel0" ∈ functions (mk_module ["kernel0"] [] EmptyString)
  ∧ kernel0_table !! "kernel0" = Some {| maxntidx := 256; is_kernel := true |}
  ∧ i32_node "kernel0" "maxntidx" 256
      ∈ nvvm_annotations
          (amend_functions kernel0_table ["kernel0"]
             (mk_module ["kernel0"] [] EmptyString)).1
  ∧ i32_node "kernel0" "kernel" 1
      ∈ nvvm_annotations
          (amend_functions kernel0_table ["kernel0"]
             (mk_module ["kernel0"] [] EmptyString)).1.
Proof.
  assert ("kernel0" ∈ functions (mk_module ["kernel0"] [] EmptyString))
    as Hf by left.
  assert (kernel0_table !! "kernel0"
          = Some {| maxntidx := 256; is_kernel := true |})
    as Hd by (vm_compute; reflexivity).
  split; [exact Hf|]. split; [exact Hd|].
  destruct (reattachment_per_positive_field kernel0_table
              (mk_module ["kernel0"] [] EmptyString) "kernel0"
              {| maxntidx := 256; is_kernel := true |} Hf Hd)
    as (_ & Hmax & Hker).
  split; [apply Hmax; cbn; lia | apply Hker; reflexivity].
Defined.

Lemma side_table_one_record_per_name_witness :
  extractNVVMMetadata nvvm_maxntid nvvm_kernel duplicate_module ∅
  = Some duplicate_table
  ∧ NoDup (map_to_list duplicate_table).*1
  ∧ (∀ name md1 md2,
       (name, md1) ∈ map_to_list duplicate_table →
       (name, md2) ∈ map_to_list duplicate_table →
       md1 = md2)
  ∧ (∀ name,
       duplicate_table !! name
       = first_record nvvm_maxntid nvvm_kernel name (getOps duplicate_module)).
Proof.
  assert (extractNVVMMetadata nvvm_maxntid nvvm_kernel duplicate_module ∅
          = Some duplicate_table) as Hex by (vm_compute; reflexivity).
  split; [exact Hex|].
  exact (side_table_one_record_per_name nvvm_maxntid nvvm_kernel
           duplicate_module duplicate_table Hex).
Defined.

Lemma unannotated_function_not_inserted_witness :
  getOps kernel0_module = [kernel0_func] ++ helper_func :: []
  ∧ hasAttr helper_func nvvm_maxntid = false
  ∧ hasAttr helper_func nvvm_kernel = false
  ∧ (∀ dic, extract_op nvvm_maxntid nvvm_kernel helper_func dic = Some dic)
  ∧ (∀ dic, extractNVVMMetadata nvvm_maxntid nvvm_kernel kernel0_module dic
            = extract_ops nvvm_maxntid nvvm_kernel ([kernel0_func] ++ []) dic)
  ∧ (∀ dic,
       extractNVVMMetadata nvvm_maxntid nvvm_kernel kernel0_module ∅
       = Some dic →
       (∀ g, g ∈ [kernel0_func] ++ [] →
             getName g ≠ getName helper_func) →
       dic !! getName helper_func = None).
Proof.
  assert (getOps kernel0_module = [kernel0_func] ++ helper_func :: [])
    as Hops by reflexivity.
  assert (hasAttr helper_func nvvm_maxntid = false)
    as H1 by (vm_compute; reflexivity).
  assert (hasAttr helper_func nvvm_kernel = false)
    as H2 by (vm_compute; reflexivity).
  split; [exact Hops|]. split; [exact H1|]. split; [exact H2|].
  exact (unannotated_function_not_inserted nvvm_maxntid nvvm_kernel
           kernel0_module [kernel0_func] helper_func [] Hops H1 H2).
Defined.

(** ** Where the claims as first stated fail *)

(** C1 as stated fails.  An entry point with limit 0 survives into the
    returned module, which has no "maxntidx" node for it at all; a limit
    of [2^32 + 256] comes out as 256; and of two definitions under one
    name the second is an entry point, the name survives, and no
    "kernel" node is there, the first definition having taken the place
    in the table. *)
Lemma preservation_counterexample :
  (getAttr limit0_func nvvm_maxntid = Some (IntegerAttr 0)
   ∧ TranslateLLVMToLLVMIR nvvm_maxntid nvvm_kernel translate_all setup_nvptx
       opt_ok limit0_module
     = Some (Some limit0_out, driver_calls ++ [CallAmend "kernel0"])
   ∧ "kernel0" ∈ functions limit0_out
   ∧ ∀ c, i32_node "kernel0" "maxntidx" c ∉ nvvm_annotations limit0_out)
  ∧ (getAttr wide_func nvvm_maxntid = Some (IntegerAttr 4294967552)
     ∧ TranslateLLVMToLLVMIR nvvm_maxntid nvvm_kernel translate_all
         setup_nvptx opt_ok wide_module
       = Some (Some wide_out, driver_calls ++ [CallAmend "kernel0"])
     ∧ "kernel0" ∈ functions wide_out
     ∧ nvvm_annotations wide_out = [i32_node "kernel0" "maxntidx" 256]
     ∧ i32_node "kernel0" "maxntidx" 4294967552
         ∉ nvvm_annotations wide_out)
  ∧ (getOps duplicate_module = [dup_limit_func; dup_kernel_func]
     ∧ hasAttr dup_kernel_func nvvm_kernel = true
     ∧ TranslateLLVMToLLVMIR nvvm_maxntid nvvm_kernel translate_distinct
         setup_nvptx opt_ok duplicate_module
       = Some (Some duplicate_out, driver_calls ++ [CallAmend "dup"])
     ∧ "dup" ∈ functions duplicate_out
     ∧ nvvm_annotations duplicate_out = [i32_node "dup" "maxntidx" 128]
     ∧ i32_node "dup" "kernel" 1 ∉ nvvm_annotations duplicate_out).
Proof.
  split_and!.
  - vm_compute; reflexivity.
  - vm_compute; reflexivity.
  - left.
  - intros c.
    replace (nvvm_annotations limit0_out) with [i32_node "kernel0" "kernel" 1]
      by (vm_compute; reflexivity).
    rewrite list_elem_of_singleton. discriminate.
  - vm_compute; reflexivity.
  - vm_compute; reflexivity.
  - left.
  - vm_compute; reflexivity.
  - replace (nvvm_annotations wide_out)
      with [i32_node "kernel0" "maxntidx" 256] by (vm_compute; reflexivity).
    rewrite list_elem_of_singleton. discriminate.
  - reflexivity.
  - vm_compute; reflexivity.
  - vm_compute; reflexivity.
  - left.
  - vm_compute; reflexivity.
  - replace (nvvm_annotations duplicate_out)
      with [i32_node "dup" "maxntidx" 128] by (vm_compute; reflexivity).
    rewrite list_elem_of_singleton. discriminate.
Qed.

(** C2 as stated fails.  With a translator that rejects the module,
    extraction has nevertheless run (it comes first, and has built its
    table); and on a module whose limit is not an integer attribute the
    run has no defined outcome, so the null result and the diagnostic are
    not reached. *)
Lemma translation_failure_counterexample :
  translate_reject kernel0_module = None
  ∧ extractNVVMMetadata nvvm_maxntid nvvm_kernel kernel0_module ∅
    = Some kernel0_table
  ∧ TranslateLLVMToLLVMIR nvvm_maxntid nvvm_kernel translate_reject
      setup_nvptx opt_ok kernel0_module
    = Some (None, [CallExtract; CallTranslate;
                   WriteErrs ("Failed to emit LLVM IR" +:+ newline)])
  ∧ CallExtract ∈ [CallExtract; CallTranslate;
                   WriteErrs ("Failed to emit LLVM IR" +:+ newline)]
  ∧ translate_reject malformed_module = None
  ∧ TranslateLLVMToLLVMIR nvvm_maxntid nvvm_kernel translate_reject
      setup_nvptx opt_ok malformed_module = None.
Proof.
  split_and!; [reflexivity | vm_compute; reflexivity | vm_compute; reflexivity
              | left | reflexivity | vm_compute; reflexivity].
Qed.

(** C3 as stated fails.  A record whose limit is 0, which is not the
    unset value -1, yields no node: the collection stays empty. *)
Lemma reattachment_counterexample :
  "f" ∈ functions one_function
  ∧ zero_table !! "f" = Some zero_record
  ∧ maxntidx zero_record = 0
  ∧ maxntidx zero_record ≠ maxntidx NVVMMetadata_default
  ∧ nvvm_annotations one_function = []
  ∧ nvvm_annotations (amendLLVMFunc "f" zero_record one_function) = []
  ∧ nvvm_annotations
      (amend_functions zero_table (functions one_function) one_function).1
    = [].
Proof.
  split_and!; [left | vm_compute; reflexivity | reflexivity | cbn; lia
              | vm_compute; reflexivity..].
Qed.

(** * Further properties of the code *)

(** ** Extraction *)

Section ExtractionProperties.

Variables MaxNTid Kernel : string.

Lemma op_metadata_defined op :
  is_Some (op_metadata MaxNTid Kernel op)
  ↔ ∀ attr, getAttr op MaxNTid = Some attr →
            is_Some (dyn_cast_IntegerAttr attr).
Proof.
  unfold op_metadata. destruct (getAttr op MaxNTid) as [attr|].
  - split.
    + intros Hs attr' [= <-].
      destruct (dyn_cast_IntegerAttr attr); [eauto|].
      by destruct Hs as [? [=]].
    + intros H. destruct (H attr eq_refl) as [v ->]. cbn. eauto.
  - split; [by intros _ ? [=]|eauto].
Qed.

Lemma op_metadata_offers op :
  is_Some (op_metadata MaxNTid Kernel op) →
  (∃ md, op_metadata MaxNTid Kernel op = Some (Some md))
  ↔ hasAttr op MaxNTid = true ∨ hasAttr op Kernel = true.
Proof.
  unfold op_metadata. rewrite (hasAttr_getAttr op MaxNTid).
  destruct (getAttr op MaxNTid) as [attr|]; cbn.
  - destruct (dyn_cast_IntegerAttr attr); cbn; [|by intros [? [=]]].
    intros _. split; [intros _; by left|eauto].
  - intros _. destruct (hasAttr op Kernel); split.
    + auto.
    + eauto.
    + by intros [? [=]].
    + by intros [H|H].
Qed.

Lemma first_record_is_Some name ops :
  is_Some (first_record MaxNTid Kernel name ops)
  ↔ ∃ op md, op ∈ ops ∧ getName op = name
             ∧ op_metadata MaxNTid Kernel op = Some (Some md).
Proof.
  induction ops as [|g ops IH]; cbn.
  - split; [by intros [? [=]]|].
    intros (op & md & Hop & _). by apply elem_of_nil in Hop.
  - case_decide as Hg.
    + destruct (op_metadata MaxNTid Kernel g) as [[md|]|] eqn:Hmd.
      * split; [|eauto]. intros _. exists g, md. split_and!; [left|done..].
      * rewrite IH. split.
        -- intros (op & md & Hop & Hn & Hm). exists op, md.
           split_and!; [by right|done..].
        -- intros (op & md & [->|Hop]%elem_of_cons & Hn & Hm);
             [congruence|eauto].
      * rewrite IH. split.
        -- intros (op & md & Hop & Hn & Hm). exists op, md.
           split_and!; [by right|done..].
        -- intros (op & md & [->|Hop]%elem_of_cons & Hn & Hm);
             [congruence|eauto].
    + rewrite IH. split.
      * intros (op & md & Hop & Hn & Hm). exists op, md.
        split_and!; [by right|done..].
      * intros (op & md & [->|Hop]%elem_of_cons & Hn & Hm);
          [congruence|eauto].
Qed.

Lemma first_record_unique_names name ops md :
  NoDup (getName <$> ops) →
  first_record MaxNTid Kernel name ops = Some md
  ↔ ∃ op, op ∈ ops ∧ getName op = name
          ∧ op_metadata MaxNTid Kernel op = Some (Some md).
Proof.
  induction ops as [|g ops IH]; cbn; intros Hnd.
  - split; [done|]. intros (op & Hop & _). by apply elem_of_nil in Hop.
  - apply NoDup_cons in Hnd as [Hg Hnd]. specialize (IH Hnd).
    assert (∀ op, op ∈ ops → getName op ≠ getName g) as Hfresh.
    { intros op Hop Heq. apply Hg. rewrite <- Heq.
      apply list_elem_of_fmap. eauto. }
    case_decide as Hn.
    + assert (first_record MaxNTid Kernel name ops = None) as Hnone.
      { apply first_record_absent. intros op Hop. rewrite <- Hn. auto. }
      split.
      * intros Hf. exists g. split_and!; [left|done|].
        destruct (op_metadata MaxNTid Kernel g) as [[md'|]|]; congruence.
      * intros (op & [->|Hop]%elem_of_cons & Hname & Hm).
        -- by rewrite Hm.
        -- exfalso. apply (Hfresh op Hop). congruence.
    + rewrite IH. split.
      * intros (op & Hop & Hname & Hm). exists op.
        split_and!; [by right|done..].
      * intros (op & [->|Hop]%elem_of_cons & Hname & Hm); [done|eauto].
Qed.

Lemma extract_ops_unannotated ops dic :
  (∀ op, op ∈ ops →
         hasAttr op MaxNTid = false ∧ hasAttr op Kernel = false) →
  extract_ops MaxNTid Kernel ops dic = Some dic.
Proof.
  induction ops as [|op ops IH]; intros Hall; cbn; [done|].
  destruct (Hall op) as [H1 H2]; [left|].
  rewrite extract_op_unannotated by done. cbn.
  apply IH. intros op' Hop'. apply Hall. by right.
Qed.

Lemma extract_ops_int_range ops dic dic' :
  extract_ops MaxNTid Kernel ops dic = Some dic' →
  (∀ name md, dic !! name = Some md → - 2 ^ 31 ≤ maxntidx md < 2 ^ 31) →
  ∀ name md, dic' !! name = Some md → - 2 ^ 31 ≤ maxntidx md < 2 ^ 31.
Proof.
  revert dic. induction ops as [|op ops IH]; intros dic; cbn.
  - by intros [= <-].
  - rewrite extract_op_eq. unfold op_metadata.
    destruct (getAttr op MaxNTid) as [attr|]; cbn.
    + destruct (dyn_cast_IntegerAttr attr) as [v|]; cbn; [|done].
      intros Hex Hdic. apply (IH _ Hex). intros name md.
      rewrite lookup_try_emplace. destruct (dic !! name) eqn:Hn.
      * intros [= <-]. eauto.
      * case_decide; [|done]. intros [= <-]. cbn. apply to_int_range.
    + destruct (hasAttr op Kernel); cbn; intros Hex Hdic;
        apply (IH _ Hex); [|done].
      intros name md. rewrite lookup_try_emplace.
      destruct (dic !! name) eqn:Hn.
      * intros [= <-]. eauto.
      * case_decide; [|done]. intros [= <-]. cbn. lia.
Qed.

(** X1.  Extraction has a defined outcome exactly when, for every
    function definition that has the limit attribute, the cast of that
    attribute to an integer attribute succeeds (an integer or a boolean
    attribute, not a string or unit attribute), whatever table it starts
    from. *)
Theorem extraction_defined_iff module dic :
  is_Some (extractNVVMMetadata MaxNTid Kernel module dic)
  ↔ ∀ op attr, op ∈ getOps module → getAttr op MaxNTid = Some attr →
               (∃ v, attr = IntegerAttr v) ∨ (∃ b, attr = BoolAttr b).
Proof.
  unfold extractNVVMMetadata. rewrite extract_ops_defined, Forall_forall.
  split.
  - intros H op attr Hop Hattr.
    assert (is_Some (dyn_cast_IntegerAttr attr)) as [v Hv].
    { apply (proj1 (op_metadata_defined op) (H op Hop) attr Hattr). }
    destruct attr; try discriminate Hv; eauto.
  - intros H op Hop. apply op_metadata_defined. intros attr Hattr.
    destruct (H op attr Hop Hattr) as [[v ->]|[b ->]]; cbn; eauto.
Qed.

(** X2.  Extraction into a table that already has entries keeps each of
    them as it is: a name that is present is never given another
    record. *)
Theorem extraction_keeps_existing_entries module dic dic' :
  extractNVVMMetadata MaxNTid Kernel module dic = Some dic' →
  dic ⊆ dic'.
Proof.
  intros Hex. apply map_subseteq_spec. intros name md Hname.
  unfold extractNVVMMetadata in Hex.
  by rewrite (extract_ops_lookup _ _ _ _ _ name Hex), Hname.
Qed.

(** X3.  The names in the side table are exactly the names of the
    function definitions that carry the limit attribute or the
    entry-point attribute. *)
Theorem side_table_domain module dic :
  extractNVVMMetadata MaxNTid Kernel module ∅ = Some dic →
  ∀ name,
    is_Some (dic !! name)
    ↔ ∃ op, op ∈ getOps module ∧ getName op = name
            ∧ (hasAttr op MaxNTid = true ∨ hasAttr op Kernel = true).
Proof.
  intros Hex name. unfold extractNVVMMetadata in Hex.
  assert (Forall (λ op, is_Some (op_metadata MaxNTid Kernel op))
            (getOps module)) as Hdef
    by (apply (extract_ops_defined _ _ _ ∅); eauto).
  rewrite Forall_forall in Hdef.
  rewrite (extract_ops_lookup _ _ _ _ _ name Hex), lookup_empty.
  rewrite first_record_is_Some. split.
  - intros (op & md & Hop & Hn & Hm). exists op. split_and!; [done..|].
    apply op_metadata_offers; eauto.
  - intros (op & Hop & Hn & Hattr).
    apply op_metadata_offers in Hattr as [md Hm]; eauto.
Qed.

(** X4.  For a function definition that is the first of its name and
    carries a recognised attribute, the table holds under that name: the
    entry-point flag set exactly when the entry-point attribute is
    present, whatever its value, and as limit the value read from the
    limit attribute (for a boolean attribute -1 or 0) converted to [int],
    or -1 when there is no limit attribute. *)
Theorem record_of_first_definition module pre f post dic :
  getOps module = pre ++ f :: post →
  (∀ g, g ∈ pre → getName g ≠ getName f) →
  hasAttr f MaxNTid = true ∨ hasAttr f Kernel = true →
  extractNVVMMetadata MaxNTid Kernel module ∅ = Some dic →
  ∃ md,
    dic !! getName f = Some md
    ∧ is_kernel md = hasAttr f Kernel
    ∧ match getAttr f MaxNTid with
      | Some attr =>
          ∃ v, dyn_cast_IntegerAttr attr = Some v ∧ maxntidx md = to_int v
      | None => maxntidx md = -1
      end.
Proof.
  intros Hops Hpre Hattr Hex.
  destruct (extracted_record _ _ _ _ _ _ _ Hops Hpre Hex) as (r & Hr & Hdic).
  assert (∃ md, op_metadata MaxNTid Kernel f = Some (Some md)) as [md Hmd]
    by (apply op_metadata_offers; eauto).
  rewrite Hr in Hmd. injection Hmd as ->. exists md. split; [done|].
  unfold op_metadata in Hr.
  destruct (getAttr f MaxNTid) as [attr|]; cbn in Hr.
  - destruct (dyn_cast_IntegerAttr attr) as [v|]; cbn in Hr; [|done].
    injection Hr as <-. split; [done|]. by exists v.
  - destruct (hasAttr f Kernel); [|done]. by injection Hr as <-.
Qed.

(** X5.  Extraction looks at nothing but the name of each function
    definition, its limit attribute and the presence of its entry-point
    attribute: two modules whose function definitions agree on these, one
    by one, give the same outcome from the same table. *)
Theorem extraction_reads_recognised_attributes_only module1 module2 dic :
  Forall2 (λ a b, getName a = getName b
                  ∧ getAttr a MaxNTid = getAttr b MaxNTid
                  ∧ hasAttr a Kernel = hasAttr b Kernel)
          (getOps module1) (getOps module2) →
  extractNVVMMetadata MaxNTid Kernel module1 dic
  = extractNVVMMetadata MaxNTid Kernel module2 dic.
Proof.
  unfold extractNVVMMetadata. intros Hall. revert dic.
  induction Hall as [|a b ops1 ops2 (Hn & Hm & Hk) _ IH]; intros dic; [done|].
  cbn. assert (extract_op MaxNTid Kernel a dic
               = extract_op MaxNTid Kernel b dic) as ->.
  { unfold extract_op. rewrite !(hasAttr_getAttr _ MaxNTid).
    by rewrite Hn, Hm, Hk. }
  destruct (extract_op MaxNTid Kernel b dic); cbn; [apply IH|done].
Qed.

(** X6.  When no two function definitions share a name, the order of the
    definitions in the module does not matter to the side table. *)
Theorem extraction_order_independent module1 module2 :
  getOps module1 ≡ₚ getOps module2 →
  NoDup (getName <$> getOps module1) →
  extractNVVMMetadata MaxNTid Kernel module1 ∅
  = extractNVVMMetadata MaxNTid Kernel module2 ∅.
Proof.
  unfold extractNVVMMetadata. intros Hperm Hnd.
  assert (NoDup (getName <$> getOps module2)) as Hnd2 by by rewrite <- Hperm.
  destruct (extract_ops MaxNTid Kernel (getOps module1) ∅)
    as [dic1|] eqn:H1;
    destruct (extract_ops MaxNTid Kernel (getOps module2) ∅)
      as [dic2|] eqn:H2.
  - f_equal. apply map_eq. intros name.
    rewrite (extract_ops_lookup _ _ _ _ _ name H1),
      (extract_ops_lookup _ _ _ _ _ name H2), !lookup_empty.
    apply option_eq. intros md. rewrite !first_record_unique_names by done.
    by setoid_rewrite Hperm.
  - assert (is_Some (extract_ops MaxNTid Kernel (getOps module2) ∅)) as [? ?];
      [|congruence].
    apply extract_ops_defined. rewrite <- Hperm.
    apply (extract_ops_defined _ _ _ ∅). eauto.
  - assert (is_Some (extract_ops MaxNTid Kernel (getOps module1) ∅)) as [? ?];
      [|congruence].
    apply extract_ops_defined. rewrite Hperm.
    apply (extract_ops_defined _ _ _ ∅). eauto.
  - done.
Qed.

End ExtractionProperties.

(** ** Re-attachment *)

Lemma amend_functions_triple dic funcs m :
  triple (amend_functions dic funcs m).1 = triple m.
Proof.
  revert m. induction funcs as [|f funcs IH]; intros m; [done|].
  rewrite amend_functions_cons, IH.
  destruct (dic !! f) as [md|]; cbn [from_option]; [|done].
  apply triple_amendLLVMFunc.
Qed.

Lemma amend_functions_unmatched dic funcs m :
  (∀ f, f ∈ funcs → dic !! f = None) →
  amend_functions dic funcs m = (m, []).
Proof.
  induction funcs as [|f funcs IH]; intros Hnone; cbn; [done|].
  rewrite (Hnone f) by left. apply IH. intros g Hg. apply Hnone. by right.
Qed.

(** X7.  Re-attachment touches [nvvm.annotations] and nothing else: the
    functions of the module, its target triple and every other named
    metadata are as before. *)
Theorem reattachment_frame dic funcs m :
  functions (amend_functions dic funcs m).1 = functions m
  ∧ triple (amend_functions dic funcs m).1 = triple m
  ∧ delete "nvvm.annotations" (named_metadata (amend_functions dic funcs m).1)
    = delete "nvvm.annotations" (named_metadata m).
Proof.
  split_and!; [apply amend_functions_functions | apply amend_functions_triple|].
  apply map_eq. intros name. rewrite !lookup_delete. case_decide; [done|].
  by apply amend_functions_other_metadata.
Qed.

(** X8.  [amendLLVMFunc] returns the module untouched, without even
    creating [nvvm.annotations], exactly when the record has a limit of 0
    or below and is not an entry point; in every other case the
    collection exists afterwards. *)
Theorem amendLLVMFunc_identity_iff func md m :
  (amendLLVMFunc func md m = m ↔ maxntidx md ≤ 0 ∧ is_kernel md = false)
  ∧ (is_Some (named_metadata (amendLLVMFunc func md m) !! "nvvm.annotations")
     ↔ is_Some (named_metadata m !! "nvvm.annotations")
       ∨ 0 < maxntidx md ∨ is_kernel md = true).
Proof.
  split.
  - split.
    + intros Heq.
      pose proof (nvvm_annotations_amendLLVMFunc func md m) as Hann.
      rewrite Heq in Hann.
      rewrite <- (app_nil_r (nvvm_annotations m)) in Hann at 1.
      apply app_inv_head in Hann. unfold amend_nodes in Hann.
      destruct (is_kernel md); case_bool_decide; try done. lia.
    + intros [Hle Hk]. unfold amendLLVMFunc. rewrite Hk.
      rewrite bool_decide_eq_false_2 by lia. done.
  - unfold amendLLVMFunc.
    destruct (is_kernel md); case_bool_decide as Hm; cbn;
      rewrite ?lookup_insert_eq; split; intros Hx; eauto; try lia.
    destruct Hx as [?|[?|?]]; [done|lia|done].
Qed.

(** X9.  Re-attachment does not look for nodes that are already there:
    running the loop a second time appends the same nodes once more. *)
Theorem reattachment_repeats dic m :
  ∃ produced,
    nvvm_annotations (amend_functions dic (functions m) m).1
    = nvvm_annotations m ++ produced
    ∧ nvvm_annotations
        (amend_functions dic (functions m)
           (amend_functions dic (functions m) m).1).1
      = nvvm_annotations m ++ produced ++ produced.
Proof.
  exists (reattached dic (functions m)).
  by rewrite !amend_functions_annotations, app_assoc.
Qed.

(** ** The driver *)

Section DriverProperties.

Variables MaxNTid Kernel : string.
Variable translateModuleToLLVMIR : ModuleOp → option llvm_Module.
Variable setupTargetTriple : llvm_Module → llvm_Module.
Variable optPipeline : llvm_Module → llvm_Module * option string.

(** X12.  Every node the driver adds is either a "maxntidx" node whose
    32-bit constant lies between 1 and 2^31 - 1, or a "kernel" node with
    constant 1, and refers to a function of the optimised module. *)
Theorem produced_nodes_well_formed module out log :
  TranslateLLVMToLLVMIR MaxNTid Kernel translateModuleToLLVMIR
    setupTargetTriple optPipeline module = Some (Some out, log) →
  ∃ lm opt produced,
    translateModuleToLLVMIR module = Some lm
    ∧ optPipeline (setupTargetTriple lm) = (opt, None)
    ∧ nvvm_annotations out = nvvm_annotations opt ++ produced
    ∧ Forall (λ node,
        ∃ f, f ∈ functions opt
             ∧ ((∃ c, node = [ ValueAsMetadata_Function f;
                               MDString "maxntidx";
                               ValueAsMetadata_ConstantInt 32 c ]
                      ∧ 0 < c < 2 ^ 31)
                ∨ node = [ ValueAsMetadata_Function f; MDString "kernel";
                           ValueAsMetadata_ConstantInt 32 1 ]))
        produced.
Proof.
  intros Hrun.
  destruct (TranslateLLVMToLLVMIR_returns _ _ _ _ _ _ _ _ Hrun)
    as (dic & lm & opt & Hex & Htr & Hopt & ->).
  exists lm, opt, (reattached dic (functions opt)).
  split_and!; [done | done | apply amend_functions_annotations |].
  apply Forall_forall.
  intros node (f & md & Hf & Hd & Hn)%elem_of_reattached.
  exists f. split; [done|].
  apply elem_of_amend_nodes in Hn as [[-> Hpos] | [-> _]]; [left|by right].
  assert (- 2 ^ 31 ≤ maxntidx md < 2 ^ 31) as Hrange.
  { apply (extract_ops_int_range MaxNTid Kernel _ ∅ dic Hex) with f; [|done].
    intros name md'. by rewrite lookup_empty. }
  exists (maxntidx md). split; [|lia].
  unfold maxntidx_node. by rewrite APInt_32_int by lia.
Qed.

(** X13.  When no function definition of the module carries a recognised
    attribute, the translator gives a module and the pipeline succeeds,
    the driver returns the module exactly as the pipeline left it. *)
Theorem unannotated_module_returned_as_optimised module lm opt :
  (∀ op, op ∈ getOps module →
         hasAttr op MaxNTid = false ∧ hasAttr op Kernel = false) →
  translateModuleToLLVMIR module = Some lm →
  optPipeline (setupTargetTriple lm) = (opt, None) →
  TranslateLLVMToLLVMIR MaxNTid Kernel translateModuleToLLVMIR
    setupTargetTriple optPipeline module
  = Some (Some opt, [CallExtract; CallTranslate; CallInitLLVM;
                     CallSetupTargetTriple; CallOptPipeline]).
Proof.
  intros Hplain Htr Hopt. unfold TranslateLLVMToLLVMIR, extractNVVMMetadata.
  rewrite extract_ops_unannotated by done. cbn. rewrite Htr, Hopt.
  rewrite amend_functions_unmatched; [done|].
  intros f _. apply lookup_empty.
Qed.

End DriverProperties.

(** ** The further properties at concrete inputs *)

Lemma extraction_keeps_existing_entries_witness :
  extractNVVMMetadata nvvm_maxntid nvvm_kernel kernel0_module earlier_table
  = Some earlier_table
  ∧ earlier_table ⊆ earlier_table.
Proof.
  assert (extractNVVMMetadata nvvm_maxntid nvvm_kernel kernel0_module
            earlier_table = Some earlier_table)
    as Hex by (vm_compute; reflexivity).
  split; [exact Hex|].
  exact (extraction_keeps_existing_entries nvvm_maxntid nvvm_kernel
           kernel0_module earlier_table earlier_table Hex).
Defined.

Lemma side_table_domain_witness :
  extractNVVMMetadata nvvm_maxntid nvvm_kernel kernel0_module ∅
  = Some kernel0_table
  ∧ ∀ name,
      is_Some (kernel0_table !! name)
      ↔ ∃ op, op ∈ getOps kernel0_module ∧ getName op = name
              ∧ (hasAttr op nvvm_maxntid = true
                 ∨ hasAttr op nvvm_kernel = true).
Proof.
  assert (extractNVVMMetadata nvvm_maxntid nvvm_kernel kernel0_module ∅
          = Some kernel0_table) as Hex by (vm_compute; reflexivity).
  split; [exact Hex|].
  exact (side_table_domain nvvm_maxntid nvvm_kernel kernel0_module
           kernel0_table Hex).
Defined.

Lemma record_of_first_definition_witness :
  getAttr bool_limit_func nvvm_maxntid = Some (BoolAttr false)
  ∧ getAttr bool_limit_func nvvm_kernel = Some (BoolAttr false)
  ∧ extractNVVMMetadata nvvm_maxntid nvvm_kernel bool_limit_module ∅
    = Some bool_limit_table
  ∧ ∃ md,
      bool_limit_table !! "flagged" = Some md
      ∧ is_kernel md = true
      ∧ ∃ v, dyn_cast_IntegerAttr (BoolAttr false) = Some v
             ∧ maxntidx md = to_int v.
Proof.
  assert (extractNVVMMetadata nvvm_maxntid nvvm_kernel bool_limit_module ∅
          = Some bool_limit_table) as Hex by (vm_compute; reflexivity).
  split; [vm_compute; reflexivity|]. split; [vm_compute; reflexivity|].
  split; [exact Hex|].
  apply (record_of_first_definition nvvm_maxntid nvvm_kernel
           bool_limit_module [] bool_limit_func [] bool_limit_table).
  - reflexivity.
  - intros g Hg. by apply elem_of_nil in Hg.
  - right. vm_compute; reflexivity.
  - exact Hex.
Defined.

Lemma extraction_reads_recognised_attributes_only_witness :
  extractNVVMMetadata nvvm_maxntid nvvm_kernel kernel0_module ∅
  = extractNVVMMetadata nvvm_maxntid nvvm_kernel decorated_module ∅.
Proof.
  apply (extraction_reads_recognised_attributes_only nvvm_maxntid nvvm_kernel
           kernel0_module decorated_module ∅).
  repeat constructor; vm_compute; reflexivity.
Defined.

Lemma extraction_order_independent_witness :
  extractNVVMMetadata nvvm_maxntid nvvm_kernel kernel0_module ∅
  = extractNVVMMetadata nvvm_maxntid nvvm_kernel swapped_module ∅.
Proof.
  apply (extraction_order_independent nvvm_maxntid nvvm_kernel
           kernel0_module swapped_module).
  - apply perm_swap.
  - change (NoDup ["kernel0"; "helper"]).
    apply NoDup_cons. split; [|apply NoDup_singleton].
    rewrite list_elem_of_singleton. discriminate.
Defined.

Lemma produced_nodes_well_formed_witness :
  ∃ lm opt produced,
    translate_all kernel0_module = Some lm
    ∧ opt_ok (setup_nvptx lm) = (opt, None)
    ∧ nvvm_annotations kernel0_out = nvvm_annotations opt ++ produced
    ∧ Forall (λ node,
        ∃ f, f ∈ functions opt
             ∧ ((∃ c, node = [ ValueAsMetadata_Function f;
                               MDString "maxntidx";
                               ValueAsMetadata_ConstantInt 32 c ]
                      ∧ 0 < c < 2 ^ 31)
                ∨ node = [ ValueAsMetadata_Function f; MDString "kernel";
                           ValueAsMetadata_ConstantInt 32 1 ]))
        produced.
Proof.
  apply (produced_nodes_well_formed nvvm_maxntid nvvm_kernel translate_all
           setup_nvptx opt_ok kernel0_module kernel0_out
           (driver_calls ++ [CallAmend "kernel0"])).
  vm_compute; reflexivity.
Defined.

Lemma unannotated_module_returned_as_optimised_witness :
  TranslateLLVMToLLVMIR nvvm_maxntid nvvm_kernel translate_all setup_nvptx
    opt_ok plain_module
  = Some (Some (mk_module ["helper"] [] "nvptx64-nvidia-cuda"),
          [CallExtract; CallTranslate; CallInitLLVM; CallSetupTargetTriple;
           CallOptPipeline]).
Proof.
  apply (unannotated_module_returned_as_optimised nvvm_maxntid nvvm_kernel
           translate_all setup_nvptx opt_ok plain_module
           (mk_module ["helper"] [] EmptyString)).
  - intros op Hop. apply list_elem_of_singleton in Hop as ->.
    split; vm_compute; reflexivity.
  - reflexivity.
  - reflexivity.
Defined.
